(** * Verification of [src/task1.js]: scenario simulation with cyclic attributes

    The program declares two blocks of attributes ([blocks]), a table of
    named input overrides ([scenarios]) and one function, [runSimulation],
    which resolves the inputs of a scenario and then recomputes the four
    calculated attributes in a loop until their values stop changing.

    JavaScript numbers are IEEE 754 binary64 values, and so are Rocq's
    primitive floats: [+], [-], [*], [Math.abs] and [<] below are the
    kernel's binary64 operations, rounding to nearest-even as JavaScript
    does.  Objects whose properties are read and written by name are finite
    maps from strings to numbers. *)

From Stdlib Require Import Floats DecimalString.
From stdpp Require Import gmap strings list fin_maps.

Set Warnings "-inexact-float".

Open Scope string_scope.
Open Scope float_scope.

(** ** JavaScript values used by the program *)

(** A plain object whose property values are numbers. *)
Abbreviation JsObject := (gmap string float).

(** [o.k] read where a number is expected: a missing property is
    [undefined], which arithmetic coerces to [NaN]. *)
Definition prop (o : JsObject) (k : string) : float := default nan (o !! k).

(** [{...target, ...source}]: the properties of [source] are copied over
    those of [target]. *)
Definition spread (target source : JsObject) : JsObject := source ∪ target.

(** One step of [Math.max] (ECMAScript, Math.max): a [NaN] argument makes
    the result [NaN]; [+0] is larger than [-0]. *)
Definition Math_max_step (highest number : float) : float :=
  if is_nan highest || is_nan number then nan
  else match classify number, classify highest with
       | PZero, NZero => number
       | _, _ => if highest <? number then number else highest
       end.

Definition Math_max (values : list float) : float :=
  fold_left Math_max_step values neg_infinity.

(** What a call evaluates to: a returned value or a thrown error. *)
Inductive Completion (A : Type) : Type :=
| Return (a : A)
| Throw (error : string).
Arguments Return {A} a.
Arguments Throw {A} error.

(** The console: [console.log] appends one entry. *)
Inductive LogEntry : Type :=
| LogText (s : string)
| LogObject (o : JsObject).

Definition console_log (console : list LogEntry) (e : LogEntry) : list LogEntry :=
  console ++ [e].

(** The escape [\n] of a string literal. *)
Definition newline : string := String (Ascii.ascii_of_nat 10) EmptyString.

(** Decimal rendering of a loop counter inside a template literal. *)
Definition string_of_nat (n : nat) : string := NilZero.string_of_uint (Nat.to_uint n).

(** ** 1) Data model: [blocks] *)

Record InputAttribute := { value : float }.
Record CalculatedAttribute := { formula : JsObject → float }.

Module blocks.
Module Production.
Definition materialCost : InputAttribute := {| value := 120 |}.
Definition energyCost : InputAttribute := {| value := 60 |}.
Definition disposalCost : CalculatedAttribute :=
  {| formula := fun ctx => prop ctx "materialCost" * 0.8 + prop ctx "co2Cost" |}.
Definition co2Cost : CalculatedAttribute :=
  {| formula := fun ctx => prop ctx "energyCost" * 0.1 + prop ctx "disposalCost" * 0.05 |}.
End Production.
Module Logistics.
Definition transportCost : InputAttribute := {| value := 35 |}.
Definition logisticsCost : CalculatedAttribute :=
  {| formula := fun ctx => prop ctx "transportCost" + prop ctx "ecoFees" |}.
Definition ecoFees : CalculatedAttribute :=
  {| formula := fun ctx => prop ctx "logisticsCost" * 0.1 + prop ctx "co2Cost" * 0.05 |}.
End Logistics.
End blocks.

(** The input attributes of [blocks] with their declared default values. *)
Definition inputDefaults : JsObject :=
  <["materialCost" := value blocks.Production.materialCost]>
  (<["energyCost" := value blocks.Production.energyCost]>
  (<["transportCost" := value blocks.Logistics.transportCost]> ∅)).

(** The calculated attributes of [blocks], in declaration order. *)
Definition calculatedAttributes : list string :=
  ["disposalCost"; "co2Cost"; "logisticsCost"; "ecoFees"].

(** ** 2) Input overrides: [scenarios] *)

Record Scenario := { Production : JsObject; Logistics : JsObject }.

Definition Base : Scenario :=
  {| Production := <["materialCost" := 120]> (<["energyCost" := 60]> ∅);
     Logistics := <["transportCost" := 35]> ∅ |}.

Definition HighEnergyPrices : Scenario :=
  {| Production := <["energyCost" := 90]> ∅;
     Logistics := <["transportCost" := 40]> ∅ |}.

Definition scenarios : gmap string Scenario :=
  <["Base" := Base]> (<["HighEnergyPrices" := HighEnergyPrices]> ∅).

(** ** 3) [runSimulation] *)

(** The object literal that opens the function: the inputs of
    [scenarios.Base], then the four calculated attributes set to zero. *)
Definition initialContext : JsObject :=
  <["ecoFees" := 0]>
  (<["logisticsCost" := 0]>
  (<["disposalCost" := 0]>
  (<["co2Cost" := 0]>
  (spread (spread ∅ (Production Base)) (Logistics Base))))).

(** [if (scenarioName !== "Base" && scenarios[scenarioName]) context = {...}].
    A name that [scenarios] does not define leaves the context as it is.
    (A name found on [Object.prototype] is truthy but has neither a
    [Production] nor a [Logistics] property, and spreading [undefined]
    copies nothing: the context is left as it is there too.) *)
Definition applyOverrides (scenarioName : string) (context : JsObject) : JsObject :=
  if bool_decide (scenarioName ≠ "Base") then
    match scenarios !! scenarioName with
    | Some sc => spread (spread (spread ∅ context) (Production sc)) (Logistics sc)
    | None => context
    end
  else context.

(** The context on entry to the loop. *)
Definition resolvedContext (scenarioName : string) : JsObject :=
  applyOverrides scenarioName initialContext.

(** The four assignments of the loop body, each made on the context the
    next formula reads. *)
Definition recalculate (context : JsObject) : JsObject :=
  let context := <["disposalCost" := formula blocks.Production.disposalCost context]> context in
  let context := <["co2Cost" := formula blocks.Production.co2Cost context]> context in
  let context := <["logisticsCost" := formula blocks.Logistics.logisticsCost context]> context in
  <["ecoFees" := formula blocks.Logistics.ecoFees context]> context.

Definition deltas (context previous : JsObject) : list float :=
  [ abs (prop context "disposalCost" - prop previous "disposalCost");
    abs (prop context "co2Cost" - prop previous "co2Cost");
    abs (prop context "logisticsCost" - prop previous "logisticsCost");
    abs (prop context "ecoFees" - prop previous "ecoFees") ].

(** The line written on convergence: [`Converged in ${iteration + 1} iterations.`]. *)
Definition convergedLine (count : nat) : LogEntry :=
  LogText ("Converged in " +:+ string_of_nat count +:+ " iterations.").

(** The [for] loop.  [maxIterations] is an iteration count, a natural
    number; [remaining] is [maxIterations - iteration], the number of times
    the test [iteration < maxIterations] can still succeed. *)
Fixpoint loop (remaining iteration : nat) (threshold : float)
    (context : JsObject) (console : list LogEntry) : JsObject * list LogEntry :=
  match remaining with
  | O => (context, console)
  | S remaining' =>
      let previous := context in
      let context := recalculate context in
      if Math_max (deltas context previous) <? threshold then
        (context, console_log console (convergedLine (iteration + 1)))
      else loop remaining' (S iteration) threshold context console
  end.

(** [runSimulation(scenarioName, maxIterations, threshold)].  The function
    has no [throw] and no operation that can raise: every call returns. *)
Definition runSimulation (scenarioName : string) (maxIterations : nat)
    (threshold : float) (console : list LogEntry)
  : Completion (JsObject * list LogEntry) :=
  Return (loop maxIterations 0 threshold (resolvedContext scenarioName) console).

(** Default arguments of the declaration. *)
Definition default_maxIterations : nat := 100.
Definition default_threshold : float := 0.001.

(** The script run by [node src/task1.js]: each result is printed after
    the call that computes it has written its own line. *)
Definition print_run (scenarioName : string) (console : list LogEntry) : list LogEntry :=
  match runSimulation scenarioName default_maxIterations default_threshold console with
  | Return (result, console) => console_log console (LogObject result)
  | Throw _ => console
  end.

Definition main : list LogEntry :=
  let console := console_log [] (LogText "Base Scenario Result:") in
  let console := print_run "Base" console in
  let console :=
    console_log console (LogText (newline +:+ "High Energy Prices Scenario Result:")) in
  print_run "HighEnergyPrices" console.

(** The result recorded in the source after the Base call. *)
Definition baseResult : JsObject :=
  <["materialCost" := 120]> (<["energyCost" := 60]> (<["transportCost" := 35]>
  (<["co2Cost" := 11.368420875]> (<["disposalCost" := 107.36841749999999]>
  (<["logisticsCost" := 39.520417125]> (<["ecoFees" := 4.520462756250001]> ∅)))))).

(** The result recorded in the source after the HighEnergyPrices call. *)
Definition highEnergyPricesResult : JsObject :=
  <["materialCost" := 120]> (<["energyCost" := 90]> (<["transportCost" := 40]>
  (<["co2Cost" := 14.526315562499999]> (<["disposalCost" := 110.52631124999999]>
  (<["logisticsCost" := 45.2514024375]> (<["ecoFees" := 5.251456021875001]> ∅)))))).

(** ** Vocabulary of the properties *)

(** The context after [k] passes of the loop body. *)
Fixpoint iterate (k : nat) (context : JsObject) : JsObject :=
  match k with
  | O => context
  | S k' => recalculate (iterate k' context)
  end.

(** [Math.max(...deltas)] for the pass that starts from [context]. *)
Definition maxDelta (context : JsObject) : float :=
  Math_max (deltas (recalculate context) context).

(** The convergence test of the pass that starts from [context]. *)
Definition converges (threshold : float) (context : JsObject) : bool :=
  maxDelta context <? threshold.

(** None of the first [n] passes from [context] meets the convergence test. *)
Definition exhausted (threshold : float) (context : JsObject) (n : nat) : bool :=
  forallb (fun j => negb (converges threshold (iterate j context))) (seq 0 n).

(** The overrides a scenario name stands for: [Production] and [Logistics]
    of the named entry of [scenarios], nothing for an undefined name. *)
Definition overridesOf (scenarioName : string) : JsObject :=
  match scenarios !! scenarioName with
  | Some sc => spread (Production sc) (Logistics sc)
  | None => ∅
  end.

(** The object a call returns, when it returns. *)
Definition returned {A B : Type} (c : Completion (A * B)) : option A :=
  match c with
  | Return (a, _) => Some a
  | Throw _ => None
  end.

(** The console a call leaves behind, when it returns. *)
Definition written {A B : Type} (c : Completion (A * B)) : option B :=
  match c with
  | Return (_, b) => Some b
  | Throw _ => None
  end.

(** A stale-snapshot (Jacobi) pass, for comparison only: every formula
    reads the context as it was before the pass. *)
Definition jacobi (context : JsObject) : JsObject :=
  <["ecoFees" := formula blocks.Logistics.ecoFees context]>
  (<["logisticsCost" := formula blocks.Logistics.logisticsCost context]>
  (<["co2Cost" := formula blocks.Production.co2Cost context]>
  (<["disposalCost" := formula blocks.Production.disposalCost context]> context))).

(** The seven attribute names of [blocks]. *)
Definition attributeNames : gset string :=
  list_to_set
    ["materialCost"; "energyCost"; "transportCost";
     "disposalCost"; "co2Cost"; "logisticsCost"; "ecoFees"].

(** Warm start as the specification words it, for comparison only: a member
    starts from its cached value when the cache holds one, from zero
    otherwise. *)
Definition spec_initial_member (cache : JsObject) (k : string) : float :=
  default 0 (cache !! k).

(** [v] rounds to [target] at three decimals. *)
Definition approx (v target : float) : bool := abs (v - target) <? 0.0005.

(** The specification's measure for one cyclic group, for comparison only:
    the largest absolute change among the group's members in the pass that
    starts from [context]. *)
Definition groupDelta (members : list string) (context : JsObject) : float :=
  Math_max (map (fun k => abs (prop (recalculate context) k - prop context k)) members).

(** The two cyclic pairs of [blocks]. *)
Definition productionGroup : list string := ["disposalCost"; "co2Cost"].
Definition logisticsGroup : list string := ["logisticsCost"; "ecoFees"].

(** [x] is NaN, a zero or of positive sign: the values [Math.abs] returns. *)
Definition nonNegative (x : float) : bool :=
  match Prim2SF x with
  | S754_nan | S754_zero _ => true
  | S754_infinity s | S754_finite s _ _ => negb s
  end.

(** ** Basic facts *)

Lemma main_output :
  main = [ LogText "Base Scenario Result:";
           LogText "Converged in 6 iterations.";
           LogObject baseResult;
           LogText (newline +:+ "High Energy Prices Scenario Result:");
           LogText "Converged in 6 iterations.";
           LogObject highEnergyPricesResult ].
Proof. reflexivity. Qed.

Lemma scenarios_lookup (name : string) :
  scenarios !! name =
    if decide (name = "Base") then Some Base
    else if decide (name = "HighEnergyPrices") then Some HighEnergyPrices
    else None.
Proof.
  unfold scenarios.
  destruct (decide (name = "Base")) as [->|HB]; [by rewrite lookup_insert_eq|].
  rewrite lookup_insert_ne by done.
  destruct (decide (name = "HighEnergyPrices")) as [->|HH]; [by rewrite lookup_insert_eq|].
  by rewrite lookup_insert_ne, lookup_empty.
Qed.

Lemma scenarios_undefined (name : string) :
  scenarios !! name = None ↔ name ≠ "Base" ∧ name ≠ "HighEnergyPrices".
Proof.
  rewrite scenarios_lookup.
  destruct (decide (name = "Base")), (decide (name = "HighEnergyPrices"));
    intuition congruence.
Qed.

(** A name other than the one defined non-Base scenario resolves to the
    context of the opening object literal. *)
Lemma resolvedContext_fallback (name : string) :
  name ≠ "HighEnergyPrices" → resolvedContext name = initialContext.
Proof.
  intros HH. unfold resolvedContext, applyOverrides.
  case_bool_decide as HB; [|done].
  rewrite scenarios_lookup. by repeat case_decide.
Qed.

Lemma resolvedContext_cases (name : string) :
  resolvedContext name = resolvedContext "HighEnergyPrices"
  ∨ resolvedContext name = initialContext.
Proof.
  destruct (decide (name = "HighEnergyPrices")) as [->|HH]; [by left|].
  right. by apply resolvedContext_fallback.
Qed.

Lemma recalculate_frame (c : JsObject) (k : string) :
  k ∉ calculatedAttributes → recalculate c !! k = c !! k.
Proof.
  intros Hk. unfold calculatedAttributes in Hk.
  rewrite !not_elem_of_cons in Hk. destruct Hk as (H1 & H2 & H3 & H4 & _).
  unfold recalculate. by rewrite !lookup_insert_ne.
Qed.

Lemma iterate_frame (n : nat) (c : JsObject) (k : string) :
  k ∉ calculatedAttributes → iterate n c !! k = c !! k.
Proof.
  intros Hk. induction n as [|n IH]; [done|].
  simpl. by rewrite recalculate_frame.
Qed.

Lemma iterate_recalculate (n : nat) (c : JsObject) :
  iterate n (recalculate c) = iterate (S n) c.
Proof. induction n as [|n IH]; [done|]. simpl in *. by rewrite IH. Qed.

Lemma forallb_seq_shift (f : nat → bool) (n start : nat) :
  forallb (fun j => f (S j)) (seq start n) = forallb f (seq (S start) n).
Proof.
  revert start. induction n as [|n IH]; intros start; [done|].
  simpl. by rewrite IH.
Qed.

Lemma forallb_pointwise {A : Type} (f g : A → bool) (l : list A) :
  (∀ x, f x = g x) → forallb f l = forallb g l.
Proof. intros Hfg. induction l as [|x l IH]; [done|]. simpl. by rewrite Hfg, IH. Qed.

Lemma exhausted_S (threshold : float) (c : JsObject) (n : nat) :
  exhausted threshold c (S n)
  = negb (converges threshold c) && exhausted threshold (recalculate c) n.
Proof.
  unfold exhausted. cbn [seq forallb iterate]. f_equal.
  rewrite <- forallb_seq_shift. apply forallb_pointwise.
  intros j. by rewrite iterate_recalculate.
Qed.

Lemma exhausted_spec (threshold : float) (c : JsObject) (n : nat) :
  exhausted threshold c n = true
  ↔ ∀ j : nat, (j < n)%nat → converges threshold (iterate j c) = false.
Proof.
  unfold exhausted. rewrite forallb_forall. split.
  - intros H j Hj. apply negb_true_iff, H, in_seq. lia.
  - intros H j Hj%in_seq. apply negb_true_iff, H. lia.
Qed.

Lemma loop_S (remaining iteration : nat) (threshold : float)
    (c : JsObject) (console : list LogEntry) :
  loop (S remaining) iteration threshold c console
  = if converges threshold c
    then (recalculate c, console_log console (convergedLine (iteration + 1)))
    else loop remaining (S iteration) threshold (recalculate c) console.
Proof. cbn [loop]. unfold converges, maxDelta. reflexivity. Qed.

(** The loop stops at the first pass that meets the test, or runs all
    [remaining] passes when none does. *)
Lemma loop_spec (remaining iteration : nat) (threshold : float)
    (c : JsObject) (console : list LogEntry) :
  (∃ k : nat, (k < remaining)%nat
      ∧ exhausted threshold c k = true
      ∧ converges threshold (iterate k c) = true
      ∧ loop remaining iteration threshold c console
        = (iterate (S k) c, console_log console (convergedLine (iteration + S k))))
  ∨ (exhausted threshold c remaining = true
      ∧ loop remaining iteration threshold c console = (iterate remaining c, console)).
Proof.
  revert iteration c. induction remaining as [|r IH]; intros iteration c.
  - right. done.
  - rewrite loop_S. destruct (converges threshold c) eqn:Hc.
    + left. exists 0%nat. split; [lia|]. split; [done|]. split; [done|].
      by rewrite Nat.add_1_r.
    + destruct (IH (S iteration) (recalculate c))
        as [(k & Hk & Hex & Hconv & Hloop)|[Hex Hloop]].
      * left. exists (S k). split; [lia|].
        rewrite exhausted_S, Hc, Hex. split; [done|].
        rewrite !iterate_recalculate in Hloop.
        rewrite iterate_recalculate in Hconv. split; [done|].
        rewrite Hloop. do 3 f_equal. lia.
      * right. rewrite exhausted_S, Hc, Hex. split; [done|].
        rewrite Hloop. by rewrite iterate_recalculate.
Qed.

(** The loop body written out: each formula reads the values assigned just
    before it in the same pass. *)
Lemma recalculate_eq (p : JsObject) :
  let d := prop p "materialCost" * 0.8 + prop p "co2Cost" in
  let co2 := prop p "energyCost" * 0.1 + d * 0.05 in
  let l := prop p "transportCost" + prop p "ecoFees" in
  let e := l * 0.1 + co2 * 0.05 in
  recalculate p
  = <["ecoFees" := e]> (<["logisticsCost" := l]>
    (<["co2Cost" := co2]> (<["disposalCost" := d]> p))).
Proof.
  intros d co2 l e. unfold recalculate. cbn [formula
    blocks.Production.disposalCost blocks.Production.co2Cost
    blocks.Logistics.logisticsCost blocks.Logistics.ecoFees].
  unfold prop.
  repeat (rewrite ?lookup_insert_eq; rewrite ?lookup_insert_ne by discriminate).
  reflexivity.
Qed.

Lemma recalculate_lookups (p : JsObject) :
  let d := prop p "materialCost" * 0.8 + prop p "co2Cost" in
  let co2 := prop p "energyCost" * 0.1 + d * 0.05 in
  let l := prop p "transportCost" + prop p "ecoFees" in
  let e := l * 0.1 + co2 * 0.05 in
  recalculate p !! "disposalCost" = Some d
  ∧ recalculate p !! "co2Cost" = Some co2
  ∧ recalculate p !! "logisticsCost" = Some l
  ∧ recalculate p !! "ecoFees" = Some e.
Proof.
  intros d co2 l e. rewrite recalculate_eq. cbv zeta. fold d co2 l e.
  repeat (rewrite ?lookup_insert_eq; rewrite ?lookup_insert_ne by discriminate).
  repeat split; reflexivity.
Qed.

Lemma recalculate_dom (c : JsObject) :
  dom (recalculate c)
  = {["ecoFees"]} ∪ ({["logisticsCost"]} ∪ ({["co2Cost"]} ∪ ({["disposalCost"]} ∪ dom c))).
Proof. rewrite recalculate_eq. cbv zeta. by rewrite !dom_insert_L. Qed.

Lemma attributeNames_calculated :
  {["ecoFees"]} ∪ ({["logisticsCost"]} ∪ ({["co2Cost"]} ∪ ({["disposalCost"]} ∪ attributeNames)))
  = attributeNames.
Proof. compute_done. Qed.

Lemma resolvedContext_dom (name : string) : dom (resolvedContext name) = attributeNames.
Proof.
  destruct (resolvedContext_cases name) as [-> | ->]; compute_done.
Qed.

Lemma iterate_dom (n : nat) (name : string) :
  dom (iterate n (resolvedContext name)) = attributeNames.
Proof.
  induction n as [|n IH]; [apply resolvedContext_dom|].
  cbn [iterate]. rewrite recalculate_dom, IH. apply attributeNames_calculated.
Qed.

(** The object returned by the loop is the context after the passes it
    made, whatever the console and the counter it started with. *)
Lemma loop_returns_iterate (remaining iteration : nat) (threshold : float)
    (c : JsObject) (console : list LogEntry) :
  ∃ k : nat, (k ≤ remaining)%nat
    ∧ (loop remaining iteration threshold c console).1 = iterate k c.
Proof.
  destruct (loop_spec remaining iteration threshold c console)
    as [(k & Hk & _ & _ & ->)|[_ ->]].
  - exists (S k). split; [lia|reflexivity].
  - exists remaining. split; [lia|reflexivity].
Qed.

Lemma loop_result_independent (remaining i1 i2 : nat) (threshold : float)
    (c : JsObject) (console1 console2 : list LogEntry) :
  (loop remaining i1 threshold c console1).1
  = (loop remaining i2 threshold c console2).1.
Proof.
  revert i1 i2 c. induction remaining as [|r IH]; intros i1 i2 c; [reflexivity|].
  rewrite !loop_S. destruct (converges threshold c); [reflexivity|apply IH].
Qed.

Lemma inputDefaults_inv (k : string) (v : float) :
  inputDefaults !! k = Some v →
  (k = "materialCost" ∧ v = 120) ∨ (k = "energyCost" ∧ v = 60)
  ∨ (k = "transportCost" ∧ v = 35).
Proof.
  unfold inputDefaults.
  cbn [value blocks.Production.materialCost blocks.Production.energyCost
       blocks.Logistics.transportCost].
  rewrite !lookup_insert_Some, lookup_empty.
  intros [[<- <-]|[_ [[<- <-]|[_ [[<- <-]|[_ ?]]]]]]; auto; discriminate.
Qed.

Lemma overridesOf_undefined (name : string) :
  name ≠ "Base" → name ≠ "HighEnergyPrices" → overridesOf name = ∅.
Proof.
  intros HB HH. unfold overridesOf. rewrite scenarios_lookup.
  destruct (decide (name = "Base")); [contradiction|].
  destruct (decide (name = "HighEnergyPrices")); [contradiction|reflexivity].
Qed.

(** Defaults first, then the overrides of the named scenario. *)
Lemma resolved_input (name k : string) (v : float) :
  inputDefaults !! k = Some v →
  resolvedContext name !! k = Some (default v (overridesOf name !! k)).
Proof.
  intros Hk.
  destruct (decide (name = "HighEnergyPrices")) as [->|HH].
  { destruct (inputDefaults_inv k v Hk) as [[-> ->]|[[-> ->]|[-> ->]]];
      vm_compute; reflexivity. }
  rewrite resolvedContext_fallback by assumption.
  destruct (decide (name = "Base")) as [->|HB].
  { destruct (inputDefaults_inv k v Hk) as [[-> ->]|[[-> ->]|[-> ->]]];
      vm_compute; reflexivity. }
  rewrite overridesOf_undefined by assumption. rewrite lookup_empty. cbn [default].
  destruct (inputDefaults_inv k v Hk) as [[-> ->]|[[-> ->]|[-> ->]]];
    vm_compute; reflexivity.
Qed.

Lemma resolved_calculated (name : string) :
  Forall (fun k => resolvedContext name !! k = Some 0) calculatedAttributes.
Proof.
  unfold calculatedAttributes.
  destruct (resolvedContext_cases name) as [-> | ->];
    repeat (constructor; [vm_compute; reflexivity|]); constructor.
Qed.

(** What a call returns, by the pass at which the loop ends. *)
Lemma run_spec (name : string) (maxIterations : nat) (threshold : float)
    (console : list LogEntry) :
  (∃ k : nat, (k < maxIterations)%nat
      ∧ exhausted threshold (resolvedContext name) k = true
      ∧ converges threshold (iterate k (resolvedContext name)) = true
      ∧ runSimulation name maxIterations threshold console
        = Return (iterate (S k) (resolvedContext name), console_log console (convergedLine (S k))))
  ∨ (exhausted threshold (resolvedContext name) maxIterations = true
      ∧ runSimulation name maxIterations threshold console
        = Return (iterate maxIterations (resolvedContext name), console)).
Proof.
  unfold runSimulation.
  destruct (loop_spec maxIterations 0 threshold (resolvedContext name) console)
    as [(k & Hk & Hex & Hconv & Heq)|[Hex Heq]]; rewrite Heq.
  - left. exists k. auto.
  - right. auto.
Qed.

Lemma converges_eq (threshold : float) (c : JsObject) :
  converges threshold c = (maxDelta c <? threshold).
Proof. unfold converges. reflexivity. Qed.

Lemma exhausted_below (threshold : float) (c : JsObject) (n : nat) :
  exhausted threshold c n = true →
  ∀ j : nat, (j < n)%nat → (maxDelta (iterate j c) <? threshold) = false.
Proof.
  intros Hex j Hj. rewrite <- converges_eq. revert j Hj. by apply exhausted_spec.
Qed.

(** ** Binary64 facts behind the convergence test *)

Lemma Prim2SF_nan_eq (x : float) : Prim2SF x = S754_nan → x = nan.
Proof. intros H. apply Prim2SF_inj. rewrite H. reflexivity. Qed.

Lemma is_nan_false_not_nan (x : float) : is_nan x = false → Prim2SF x ≠ S754_nan.
Proof.
  unfold is_nan. rewrite FloatAxioms.eqb_spec. intros H Hx. rewrite Hx in H. discriminate H.
Qed.

Lemma ltb_nan_l (t : float) : (nan <? t) = false.
Proof. rewrite FloatAxioms.ltb_spec. reflexivity. Qed.

Lemma nonNegative_abs (x : float) : nonNegative (abs x) = true.
Proof. unfold nonNegative. rewrite FloatAxioms.abs_spec. destruct (Prim2SF x); reflexivity. Qed.

Lemma nonNegative_not_below (x t : float) :
  nonNegative x = true → (0 <? t) = false → (x <? t) = false.
Proof.
  unfold nonNegative. rewrite !FloatAxioms.ltb_spec.
  change (Prim2SF 0) with (S754_zero false).
  destruct (Prim2SF x) as [sx| sx| |sx mx ex], (Prim2SF t) as [st| st| |st mt et];
    cbn; try reflexivity; try discriminate;
    destruct sx; try discriminate; destruct st; try discriminate; reflexivity.
Qed.

Lemma Math_max_step_nonNegative (highest number : float) :
  nonNegative highest = true → nonNegative number = true →
  nonNegative (Math_max_step highest number) = true.
Proof.
  intros Hh Hn. unfold Math_max_step.
  destruct (is_nan highest || is_nan number); [reflexivity|].
  destruct (classify number), (classify highest), (highest <? number); assumption.
Qed.

Lemma Math_max_step_first (number : float) :
  nonNegative number = true →
  nonNegative (Math_max_step neg_infinity number) = true.
Proof.
  intros Hn. unfold Math_max_step.
  change (is_nan neg_infinity) with false. cbn [orb].
  destruct (is_nan number) eqn:Hnan; [reflexivity|].
  apply is_nan_false_not_nan in Hnan.
  change (classify neg_infinity) with NInf.
  assert (Hlt : (neg_infinity <? number) = true).
  { rewrite FloatAxioms.ltb_spec. change (Prim2SF neg_infinity) with (S754_infinity true).
    unfold nonNegative in Hn.
    destruct (Prim2SF number) as [s| s| |s m e]; try reflexivity; try contradiction;
      destruct s; try discriminate; reflexivity. }
  rewrite Hlt. destruct (classify number); assumption.
Qed.

(** The largest of the four differences is never below zero. *)
Lemma maxDelta_nonNegative (c : JsObject) : nonNegative (maxDelta c) = true.
Proof.
  unfold maxDelta, deltas, Math_max. cbn [fold_left].
  do 3 (apply Math_max_step_nonNegative; [|apply nonNegative_abs]).
  apply Math_max_step_first, nonNegative_abs.
Qed.

Lemma never_converges (threshold : float) (c : JsObject) :
  (0 <? threshold) = false → converges threshold c = false.
Proof.
  intros Ht. rewrite converges_eq.
  apply nonNegative_not_below; [apply maxDelta_nonNegative|exact Ht].
Qed.



Ltac sf_cases :=
  repeat match goal with
  | s : bool |- _ => destruct s
  end.

Lemma SFcompare_refl (x : spec_float) : x ≠ S754_nan → SFcompare x x = Some Eq.
Proof.
  destruct x as [s|s| |s m e]; intros H; try reflexivity; try contradiction.
  - destruct s; reflexivity.
  - cbn. destruct s; rewrite Z.compare_refl;
      change (Pos.compare_cont Eq m m) with (Pos.compare m m);
      rewrite Pos.compare_refl; reflexivity.
Qed.

(** The order of binary64 values is transitive. *)
Lemma SFltb_trans (x y z : spec_float) :
  SFltb x y = true → SFltb y z = true → SFltb x z = true.
Proof.
  unfold SFltb.
  destruct x as [sx|sx| |sx mx ex], y as [sy|sy| |sy my ey], z as [sz|sz| |sz mz ez];
    sf_cases; cbn; try reflexivity; try discriminate.
  all: change (Pos.compare_cont Eq ?a ?b) with (Pos.compare a b).
  all: destruct (Z.compare_spec ex ey), (Z.compare_spec ey ez), (Z.compare_spec ex ez);
    try lia; try discriminate; try reflexivity; cbn.
  all: destruct (Pos.compare_spec mx my), (Pos.compare_spec my mz),
         (Pos.compare_spec mx mz);
    cbn; try lia; try discriminate; try reflexivity.
Qed.

(** [x] not above [y] and [y] below [z] put [x] below [z]. *)
Lemma SFltb_le_lt (x y z : spec_float) :
  x ≠ S754_nan → y ≠ S754_nan →
  SFltb y x = false → SFltb y z = true → SFltb x z = true.
Proof.
  unfold SFltb. intros Hx Hy.
  destruct x as [sx|sx| |sx mx ex], y as [sy|sy| |sy my ey], z as [sz|sz| |sz mz ez];
    try contradiction; sf_cases; cbn; try reflexivity; try discriminate.
  all: change (Pos.compare_cont Eq ?a ?b) with (Pos.compare a b).
  all: destruct (Z.compare_spec ey ex), (Z.compare_spec ey ez), (Z.compare_spec ex ez);
    try lia; try discriminate; try reflexivity; cbn.
  all: destruct (Pos.compare_spec my mx), (Pos.compare_spec my mz),
         (Pos.compare_spec mx mz);
    cbn; try lia; try discriminate; try reflexivity.
Qed.

Lemma is_nan_true (x : float) : is_nan x = true → Prim2SF x = S754_nan.
Proof.
  unfold is_nan. rewrite FloatAxioms.eqb_spec. unfold SFeqb. intros H.
  destruct (Prim2SF x) as [s|s| |s m e] eqn:E; [| |reflexivity|];
    rewrite SFcompare_refl in H by discriminate; discriminate H.
Qed.

Lemma ltb_of_nan (x t : float) : Prim2SF x = S754_nan → (x <? t) = false.
Proof. intros H. rewrite FloatAxioms.ltb_spec, H. reflexivity. Qed.

Lemma classify_PZero (x : float) : classify x = PZero → Prim2SF x = S754_zero false.
Proof.
  rewrite FloatAxioms.classify_spec. unfold SF64classify, SFclassify.
  destruct (Prim2SF x) as [[]|[]| |[] m e]; try discriminate; try reflexivity;
    destruct (Z.eqb _ _); discriminate.
Qed.

Lemma classify_NZero (x : float) : classify x = NZero → Prim2SF x = S754_zero true.
Proof.
  rewrite FloatAxioms.classify_spec. unfold SF64classify, SFclassify.
  destruct (Prim2SF x) as [[]|[]| |[] m e]; try discriminate; try reflexivity;
    destruct (Z.eqb _ _); discriminate.
Qed.

(** The larger of two numbers is below [t] exactly when both are. *)
Lemma larger_ltb (h n t : float) :
  Prim2SF h ≠ S754_nan → Prim2SF n ≠ S754_nan →
  ((if h <? n then n else h) <? t) = (h <? t) && (n <? t).
Proof.
  intros Hh Hn. rewrite (FloatAxioms.ltb_spec h n).
  destruct (SFltb (Prim2SF h) (Prim2SF n)) eqn:Hlt; rewrite !FloatAxioms.ltb_spec.
  - destruct (SFltb (Prim2SF n) (Prim2SF t)) eqn:Hnt.
    + rewrite (SFltb_trans _ _ _ Hlt Hnt). reflexivity.
    + rewrite andb_false_r. reflexivity.
  - destruct (SFltb (Prim2SF h) (Prim2SF t)) eqn:Hht; [|reflexivity].
    rewrite (SFltb_le_lt (Prim2SF n) (Prim2SF h) (Prim2SF t) Hn Hh Hlt Hht).
    reflexivity.
Qed.

(** One step of [Math.max] is below [t] exactly when both arguments are. *)
Lemma Math_max_step_ltb (highest number t : float) :
  (Math_max_step highest number <? t) = (highest <? t) && (number <? t).
Proof.
  unfold Math_max_step.
  destruct (is_nan highest) eqn:Hh; cbn [orb].
  { rewrite ltb_nan_l, (ltb_of_nan highest t (is_nan_true _ Hh)). reflexivity. }
  destruct (is_nan number) eqn:Hn.
  { rewrite ltb_nan_l, (ltb_of_nan number t (is_nan_true _ Hn)).
    rewrite andb_false_r. reflexivity. }
  apply is_nan_false_not_nan in Hh, Hn.
  pose proof (larger_ltb highest number t Hh Hn) as Hif.
  destruct (classify number) eqn:Cn, (classify highest) eqn:Ch; try exact Hif.
  apply classify_PZero in Cn. apply classify_NZero in Ch.
  rewrite !FloatAxioms.ltb_spec, Cn, Ch.
  destruct (Prim2SF t) as [[]|[]| |[] m e]; reflexivity.
Qed.

Lemma fold_Math_max_step_ltb (values : list float) (highest t : float) :
  (fold_left Math_max_step values highest <? t)
  = (highest <? t) && forallb (fun v => v <? t) values.
Proof.
  revert highest. induction values as [|v values IH]; intros highest; cbn [fold_left forallb].
  - rewrite andb_true_r. reflexivity.
  - rewrite IH, Math_max_step_ltb, andb_assoc. reflexivity.
Qed.

Lemma neg_infinity_ltb (v t : float) : (neg_infinity <? t) && (v <? t) = (v <? t).
Proof.
  rewrite !FloatAxioms.ltb_spec.
  change (Prim2SF neg_infinity) with (S754_infinity true).
  destruct (Prim2SF v) as [[]|[]| |[] mv ev], (Prim2SF t) as [[]|[]| |[] mt et];
    reflexivity.
Qed.

(** [Math.max] of at least one number is below [t] exactly when every
    argument is. *)
Lemma Math_max_ltb (v : float) (values : list float) (t : float) :
  (Math_max (v :: values) <? t) = forallb (fun d => d <? t) (v :: values).
Proof.
  unfold Math_max. rewrite fold_Math_max_step_ltb. cbn [forallb].
  rewrite andb_assoc, neg_infinity_ltb. reflexivity.
Qed.

(** The convergence test passes exactly when each of the four absolute
    differences is below the threshold. *)
Lemma maxDelta_ltb (c : JsObject) (t : float) :
  (maxDelta c <? t)
  = (abs (prop (recalculate c) "disposalCost" - prop c "disposalCost") <? t)
    && (abs (prop (recalculate c) "co2Cost" - prop c "co2Cost") <? t)
    && (abs (prop (recalculate c) "logisticsCost" - prop c "logisticsCost") <? t)
    && (abs (prop (recalculate c) "ecoFees" - prop c "ecoFees") <? t).
Proof.
  unfold maxDelta, deltas. rewrite Math_max_ltb. cbn [forallb].
  rewrite andb_true_r, !andb_assoc. reflexivity.
Qed.

(** ** The two documented runs *)

(** C1. The Base scenario starts from materialCost = 120, energyCost = 60,
    transportCost = 35 and the four calculated attributes at 0.  With
    threshold 0.001 and any iteration cap of at least 6 (the default is 100)
    the run writes "Converged in 6 iterations." and returns the values the
    source records, which round to co2Cost 11.368, disposalCost 107.368,
    logisticsCost 39.520 and ecoFees 4.520; none of the first five passes
    meets the convergence test. *)
Theorem C1_base_converges_in_6 (n : nat) (console : list LogEntry) :
  resolvedContext "Base"
  = <["materialCost" := 120]> (<["energyCost" := 60]> (<["transportCost" := 35]>
    (<["co2Cost" := 0]> (<["disposalCost" := 0]>
    (<["logisticsCost" := 0]> (<["ecoFees" := 0]> ∅))))))
  ∧ runSimulation "Base" (6 + n) 0.001 console
    = Return (baseResult, console_log console (LogText "Converged in 6 iterations."))
  ∧ runSimulation "Base" default_maxIterations default_threshold console
    = Return (baseResult, console_log console (LogText "Converged in 6 iterations."))
  ∧ exhausted 0.001 (resolvedContext "Base") 5 = true
  ∧ approx (prop baseResult "co2Cost") 11.368 = true
  ∧ approx (prop baseResult "disposalCost") 107.368 = true
  ∧ approx (prop baseResult "logisticsCost") 39.520 = true
  ∧ approx (prop baseResult "ecoFees") 4.520 = true.
Proof.
  split; [reflexivity|]. split; [reflexivity|]. split; [reflexivity|].
  repeat split; vm_compute; reflexivity.
Qed.

(** C2. The HighEnergyPrices scenario overrides energyCost = 90 and
    transportCost = 40 and leaves materialCost at 120.  With threshold 0.001
    and any iteration cap of at least 6 it converges in 6 iterations, as the
    Base run does, and returns the values the source records, which round to
    co2Cost 14.526, disposalCost 110.526, logisticsCost 45.251 and ecoFees
    5.251. *)
Theorem C2_high_energy_prices_converges_in_6 (n : nat) (console : list LogEntry) :
  resolvedContext "HighEnergyPrices"
  = <["materialCost" := 120]> (<["energyCost" := 90]> (<["transportCost" := 40]>
    (<["co2Cost" := 0]> (<["disposalCost" := 0]>
    (<["logisticsCost" := 0]> (<["ecoFees" := 0]> ∅))))))
  ∧ runSimulation "HighEnergyPrices" (6 + n) 0.001 console
    = Return (highEnergyPricesResult,
              console_log console (LogText "Converged in 6 iterations."))
  ∧ runSimulation "HighEnergyPrices" default_maxIterations default_threshold console
    = Return (highEnergyPricesResult,
              console_log console (LogText "Converged in 6 iterations."))
  ∧ written (runSimulation "HighEnergyPrices" (6 + n) 0.001 console)
    = written (runSimulation "Base" (6 + n) 0.001 console)
  ∧ exhausted 0.001 (resolvedContext "HighEnergyPrices") 5 = true
  ∧ approx (prop highEnergyPricesResult "co2Cost") 14.526 = true
  ∧ approx (prop highEnergyPricesResult "disposalCost") 110.526 = true
  ∧ approx (prop highEnergyPricesResult "logisticsCost") 45.251 = true
  ∧ approx (prop highEnergyPricesResult "ecoFees") 5.251 = true.
Proof.
  split; [reflexivity|]. split; [reflexivity|]. split; [reflexivity|].
  split; [reflexivity|].
  repeat split; vm_compute; reflexivity.
Qed.

(** ** The update rule and the stopping rule *)

Example Math_max_examples :
  Math_max [1; 3; 2; 0.5] = 3 ∧ Math_max [] = neg_infinity
  ∧ Math_max [1; nan] = nan ∧ Math_max [nan; 1] = nan
  ∧ Math_max [-0; 0] = 0 ∧ Math_max [0; -0] = 0.
Proof. repeat split; vm_compute; reflexivity. Qed.

(** On the first pass of the Base run the sequential update and a
    stale-snapshot update give different values. *)
Example recalculate_is_not_jacobi :
  prop (recalculate initialContext) "disposalCost" = 96
  ∧ prop (recalculate initialContext) "co2Cost" = 10.800000000000001
  ∧ prop (jacobi initialContext) "co2Cost" = 6
  ∧ prop (recalculate initialContext) "ecoFees" = 4.04
  ∧ prop (jacobi initialContext) "ecoFees" = 0.
Proof. repeat split; vm_compute; reflexivity. Qed.

(** C3. A run makes its passes one after the other from the resolved
    context: it returns the context after exactly [k] passes, where [k] is
    the first pass that meets the convergence test, or [maxIterations] when
    none does.  In each of these passes the members are assigned in the
    fixed order disposalCost, co2Cost, logisticsCost, ecoFees, and each
    formula reads the context as the assignments before it left it:
    disposalCost and logisticsCost read the previous pass's co2Cost and
    ecoFees, while co2Cost reads the disposalCost of the same pass and
    ecoFees reads the logisticsCost and co2Cost of the same pass. *)
Theorem C3_sequential_update
    (name : string) (maxIterations : nat) (threshold : float)
    (console : list LogEntry) :
  let start := resolvedContext name in
  (∃ k : nat,
     returned (runSimulation name maxIterations threshold console)
     = Some (iterate k start)
     ∧ (k ≤ maxIterations)%nat
     ∧ (∀ j : nat, (S j < k)%nat → (maxDelta (iterate j start) <? threshold) = false)
     ∧ (k = maxIterations
        ∨ ((0 < k)%nat ∧ (maxDelta (iterate (k - 1) start) <? threshold) = true))
     ∧ ∀ j : nat, (j < k)%nat →
         let previous := iterate j start in
         let current := iterate (S j) start in
         current !! "disposalCost"
         = Some (prop previous "materialCost" * 0.8 + prop previous "co2Cost")
         ∧ current !! "co2Cost"
           = Some (prop previous "energyCost" * 0.1 + prop current "disposalCost" * 0.05)
         ∧ current !! "logisticsCost"
           = Some (prop previous "transportCost" + prop previous "ecoFees")
         ∧ current !! "ecoFees"
           = Some (prop current "logisticsCost" * 0.1 + prop current "co2Cost" * 0.05))
  ∧ ∀ (c : JsObject) (k : nat),
      let previous := iterate k c in
      let current := iterate (S k) c in
      current !! "disposalCost"
      = Some (prop previous "materialCost" * 0.8 + prop previous "co2Cost")
      ∧ current !! "co2Cost"
        = Some (prop previous "energyCost" * 0.1 + prop current "disposalCost" * 0.05)
      ∧ current !! "logisticsCost"
        = Some (prop previous "transportCost" + prop previous "ecoFees")
      ∧ current !! "ecoFees"
        = Some (prop current "logisticsCost" * 0.1 + prop current "co2Cost" * 0.05).
Proof.
  intros start.
  assert (Hpass : ∀ (c : JsObject) (k : nat),
      let previous := iterate k c in
      let current := iterate (S k) c in
      current !! "disposalCost"
      = Some (prop previous "materialCost" * 0.8 + prop previous "co2Cost")
      ∧ current !! "co2Cost"
        = Some (prop previous "energyCost" * 0.1 + prop current "disposalCost" * 0.05)
      ∧ current !! "logisticsCost"
        = Some (prop previous "transportCost" + prop previous "ecoFees")
      ∧ current !! "ecoFees"
        = Some (prop current "logisticsCost" * 0.1 + prop current "co2Cost" * 0.05)).
  { intros c k previous current. subst current. cbn [iterate]. fold previous.
    destruct (recalculate_lookups previous) as (Hd & Hco2 & Hl & He).
    unfold prop in *. rewrite Hd, Hco2, Hl, He. cbn [default].
    repeat split; reflexivity. }
  split; [|exact Hpass]. subst start.
  destruct (run_spec name maxIterations threshold console)
    as [(k & Hk & Hex & Hconv & Heq)|[Hex Heq]];
    pose proof (exhausted_below _ _ _ Hex) as Hbelow;
    try rewrite converges_eq in Hconv; rewrite Heq; cbn [returned].
  - exists (S k). split; [reflexivity|]. split; [lia|]. split.
    { intros j Hj. apply Hbelow. lia. }
    split.
    { right. split; [lia|]. replace (S k - 1)%nat with k by lia. exact Hconv. }
    intros j _. apply Hpass.
  - exists maxIterations. split; [reflexivity|]. split; [lia|]. split.
    { intros j Hj. apply Hbelow. lia. }
    split; [left; reflexivity|]. intros j _. apply Hpass.
Qed.

(** With threshold 0.002 the Production pair is below the threshold after
    the fifth pass of the Base run (its largest change is 0.00135) while the
    Logistics pair is not (0.0045).  The run does not stop for the
    Production pair: the test is made on all four attributes together, a
    sixth pass is made and it changes disposalCost and co2Cost again.  C4's
    maximum "across that group" is not the one the run tests. *)
Lemma C4_groups_are_not_tested_separately :
  let start := resolvedContext "Base" in
  (groupDelta productionGroup (iterate 4 start) <? 0.002) = true
  ∧ (groupDelta logisticsGroup (iterate 4 start) <? 0.002) = false
  ∧ (maxDelta (iterate 4 start) <? 0.002) = false
  ∧ runSimulation "Base" 100 0.002 [] = Return (iterate 6 start, [convergedLine 6])
  ∧ prop (iterate 5 start) "disposalCost" = 107.36834999999999
  ∧ prop (iterate 6 start) "disposalCost" = 107.36841749999999
  ∧ prop (iterate 5 start) "co2Cost" = 11.3684175
  ∧ prop (iterate 6 start) "co2Cost" = 11.368420875.
Proof.
  intros start. subst start.
  split; [vm_compute; reflexivity|]. split; [vm_compute; reflexivity|].
  split; [vm_compute; reflexivity|]. split; [reflexivity|].
  repeat split; vm_compute; reflexivity.
Qed.

(** C4, amended. A run makes passes over the four calculated attributes,
    both cyclic pairs together.  After each pass it takes [Math.max] of the
    absolute differences between the new and the previous value of each of
    the four, and that maximum is strictly below [threshold] exactly when
    each of the four differences is.  The run stops at the first pass where
    this joint maximum is strictly below [threshold], writing the line that
    counts the passes, and it makes all [maxIterations] passes when no pass
    meets the test. *)
Theorem C4_stops_at_first_pass_below_threshold
    (name : string) (maxIterations : nat) (threshold : float)
    (console : list LogEntry) :
  let start := resolvedContext name in
  (∀ c : JsObject,
     maxDelta c
     = Math_max
         [ abs (prop (recalculate c) "disposalCost" - prop c "disposalCost");
           abs (prop (recalculate c) "co2Cost" - prop c "co2Cost");
           abs (prop (recalculate c) "logisticsCost" - prop c "logisticsCost");
           abs (prop (recalculate c) "ecoFees" - prop c "ecoFees") ])
  ∧ (∀ (c : JsObject) (t : float),
       (maxDelta c <? t)
       = (abs (prop (recalculate c) "disposalCost" - prop c "disposalCost") <? t)
         && (abs (prop (recalculate c) "co2Cost" - prop c "co2Cost") <? t)
         && (abs (prop (recalculate c) "logisticsCost" - prop c "logisticsCost") <? t)
         && (abs (prop (recalculate c) "ecoFees" - prop c "ecoFees") <? t))
  ∧ ∃ (k : nat) (console' : list LogEntry),
      runSimulation name maxIterations threshold console
      = Return (iterate k start, console')
      ∧ (k ≤ maxIterations)%nat
      ∧ (∀ j : nat, (S j < k)%nat → (maxDelta (iterate j start) <? threshold) = false)
      ∧ (((0 < k)%nat
          ∧ (maxDelta (iterate (k - 1) start) <? threshold) = true
          ∧ console' = console_log console (convergedLine k))
         ∨ (k = maxIterations
            ∧ (∀ j : nat, (j < maxIterations)%nat
                 → (maxDelta (iterate j start) <? threshold) = false)
            ∧ console' = console)).
Proof.
  intros start. subst start. split; [reflexivity|]. split; [exact maxDelta_ltb|].
  destruct (run_spec name maxIterations threshold console)
    as [(k & Hk & Hex & Hconv & Heq)|[Hex Heq]];
    pose proof (exhausted_below _ _ _ Hex) as Hbelow;
    try rewrite converges_eq in Hconv.
  - exists (S k), (console_log console (convergedLine (S k))).
    split; [exact Heq|]. split; [lia|]. split.
    + intros j Hj. apply Hbelow. lia.
    + left. split; [lia|]. split; [|reflexivity].
      replace (S k - 1)%nat with k by lia. exact Hconv.
  - exists maxIterations, console. split; [exact Heq|]. split; [lia|]. split.
    + intros j Hj. apply Hbelow. lia.
    + right. split; [reflexivity|]. split; [|reflexivity]. exact Hbelow.
Qed.

(** ** Reaching the iteration cap *)

(** A run whose passes never meet the test and a run that converges can
    return the same object: with cap 6 the Base run with threshold 0 makes
    6 passes without converging, the Base run with threshold 0.001 converges
    on its sixth pass, and both return [baseResult], which has no
    [converged] property; the exhausted run writes nothing.  The claim C5
    makes about a [converged = false] flag in the result fails there. *)
Lemma C5_no_flag_in_result :
  exhausted 0 (resolvedContext "Base") 6 = true
  ∧ runSimulation "Base" 6 0 [] = Return (baseResult, [])
  ∧ runSimulation "Base" 6 0.001 [] = Return (baseResult, [convergedLine 6])
  ∧ baseResult !! "converged" = None
  ∧ dom baseResult = attributeNames.
Proof.
  split; [vm_compute; reflexivity|]. split; [reflexivity|]. split; [reflexivity|].
  split; compute_done.
Qed.

(** C5, amended. When none of the [maxIterations] passes meets the
    convergence test, the run ends after exactly [maxIterations] passes,
    raises nothing and returns the values of the last pass.  What it returns
    is the bare context, with the seven attributes and no [converged]
    property, and it writes nothing to the console: the absence of the
    "Converged in N iterations." line is the only sign of non-convergence. *)
Theorem C5_cap_reached_returns_last_values
    (name : string) (maxIterations : nat) (threshold : float)
    (console : list LogEntry) :
  exhausted threshold (resolvedContext name) maxIterations = true →
  let result := iterate maxIterations (resolvedContext name) in
  runSimulation name maxIterations threshold console = Return (result, console)
  ∧ dom result = attributeNames
  ∧ result !! "converged" = None.
Proof.
  intros Hex result. subst result.
  destruct (run_spec name maxIterations threshold console)
    as [(k & Hk & _ & Hconv & _)|[_ Heq]].
  - rewrite exhausted_spec in Hex. rewrite (Hex k Hk) in Hconv. discriminate.
  - split; [exact Heq|].
    pose proof (iterate_dom maxIterations name) as Hdom.
    split; [exact Hdom|].
    apply not_elem_of_dom. rewrite Hdom. compute_done.
Qed.

Lemma C5_cap_reached_witness :
  exhausted 0 (resolvedContext "Base") 100 = true
  ∧ runSimulation "Base" 100 0 []
    = Return (iterate 100 (resolvedContext "Base"), [])
  ∧ dom (iterate 100 (resolvedContext "Base")) = attributeNames
  ∧ iterate 100 (resolvedContext "Base") !! "converged" = None.
Proof.
  assert (H : exhausted 0 (resolvedContext "Base") 100 = true)
    by (vm_compute; reflexivity).
  split; [exact H|].
  exact (C5_cap_reached_returns_last_values "Base" 100 0 [] H).
Defined.

(** ** Initial values of the calculated attributes *)

(** C6. The program holds no cache: no binding outlives a call, so no
    member ever has a cached value.  At the start of every run, whatever the
    scenario name, each of the four members of the cyclic groups has the
    value the rule gives when no cached value exists, which is zero. *)
Theorem C6_calculated_start_at_zero (name : string) :
  Forall (fun k => resolvedContext name !! k = Some (spec_initial_member ∅ k))
    calculatedAttributes
  ∧ Forall (fun k => resolvedContext name !! k = Some 0) calculatedAttributes
  ∧ resolvedContext name !! "disposalCost" = Some 0
  ∧ resolvedContext name !! "co2Cost" = Some 0
  ∧ resolvedContext name !! "logisticsCost" = Some 0
  ∧ resolvedContext name !! "ecoFees" = Some 0.
Proof.
  pose proof (resolved_calculated name) as H.
  split; [|split; [exact H|]].
  - eapply Forall_impl; [exact H|]. intros k Hk. rewrite Hk.
    unfold spec_initial_member. rewrite lookup_empty. reflexivity.
  - unfold calculatedAttributes in H.
    repeat (apply Forall_cons in H; destruct H as [? H]). auto.
Qed.

(** ** Input resolution *)

(** C7. For every scenario name and every input attribute of [blocks], the
    resolved context holds the override of the named scenario when it has
    one for that attribute and the attribute's default value otherwise; an
    input the scenario does not mention keeps its default. *)
Theorem C7_defaults_then_overrides (name k : string) (v : float) :
  inputDefaults !! k = Some v →
  resolvedContext name !! k = Some (default v (overridesOf name !! k))
  ∧ (∀ w : float, overridesOf name !! k = Some w → resolvedContext name !! k = Some w)
  ∧ (overridesOf name !! k = None → resolvedContext name !! k = Some v).
Proof.
  intros Hk. pose proof (resolved_input name k v Hk) as H.
  split; [exact H|]. split.
  - intros w Hw. rewrite H, Hw. reflexivity.
  - intros Hn. rewrite H, Hn. reflexivity.
Qed.

Lemma C7_defaults_then_overrides_witness :
  inputDefaults !! "materialCost" = Some 120
  ∧ overridesOf "HighEnergyPrices" !! "materialCost" = None
  ∧ overridesOf "HighEnergyPrices" !! "energyCost" = Some 90
  ∧ resolvedContext "HighEnergyPrices" !! "materialCost" = Some 120.
Proof.
  assert (Hk : inputDefaults !! "materialCost" = Some 120) by (vm_compute; reflexivity).
  assert (Hn : overridesOf "HighEnergyPrices" !! "materialCost" = None)
    by (vm_compute; reflexivity).
  split; [exact Hk|]. split; [exact Hn|]. split; [vm_compute; reflexivity|].
  exact (proj2 (proj2 (C7_defaults_then_overrides "HighEnergyPrices" "materialCost"
                         120 Hk)) Hn).
Defined.

(** ** Undefined scenario names *)

(** "Recession" is neither a scenario nor an attribute of the program.
    Running it raises nothing: it converges in 6 iterations and returns what
    the Base run returns, with every input at its default.  C8's
    [InvalidOverride] error does not occur there. *)
Lemma C8_undefined_name_returns :
  scenarios !! "Recession" = None
  ∧ inputDefaults !! "Recession" = None
  ∧ runSimulation "Recession" default_maxIterations default_threshold []
    = Return (baseResult, [convergedLine 6])
  ∧ runSimulation "Recession" default_maxIterations default_threshold []
    = runSimulation "Base" default_maxIterations default_threshold []
  ∧ ¬ ∃ error : string,
        runSimulation "Recession" default_maxIterations default_threshold []
        = Throw error.
Proof.
  split; [vm_compute; reflexivity|]. split; [vm_compute; reflexivity|].
  split; [reflexivity|]. split; [reflexivity|].
  intros [error H]. unfold runSimulation in H. discriminate H.
Qed.

(** C8, amended. Resolving inputs for a run never fails: every call
    returns, whatever the scenario name.  In particular a scenario name
    that [scenarios] does not define is not an error but a fallback made
    without notice: every input keeps its default value and the call
    returns exactly what the Base run returns. *)
Theorem C8_undefined_scenario_falls_back
    (name : string) (maxIterations : nat) (threshold : float)
    (console : list LogEntry) :
  (∃ r, runSimulation name maxIterations threshold console = Return r)
  ∧ (¬ ∃ error : string,
         runSimulation name maxIterations threshold console = Throw error)
  ∧ (scenarios !! name = None →
     runSimulation name maxIterations threshold console
     = runSimulation "Base" maxIterations threshold console
     ∧ ∀ (k : string) (v : float),
         inputDefaults !! k = Some v → resolvedContext name !! k = Some v).
Proof.
  split; [|split].
  - eexists. reflexivity.
  - intros [error H]. unfold runSimulation in H. discriminate H.
  - intros [HB HH]%scenarios_undefined. split.
    + unfold runSimulation.
      rewrite (resolvedContext_fallback name HH).
      rewrite (resolvedContext_fallback "Base") by discriminate. reflexivity.
    + intros k v Hk. rewrite (resolved_input name k v Hk).
      rewrite overridesOf_undefined by assumption. rewrite lookup_empty. reflexivity.
Qed.

Lemma C8_undefined_scenario_witness :
  scenarios !! "Recession" = None
  ∧ runSimulation "Recession" 100 0.001 [] = runSimulation "Base" 100 0.001 []
  ∧ resolvedContext "Recession" !! "energyCost" = Some 60.
Proof.
  assert (H : scenarios !! "Recession" = None) by (vm_compute; reflexivity).
  assert (Hk : inputDefaults !! "energyCost" = Some 60) by (vm_compute; reflexivity).
  pose proof (proj2 (proj2 (C8_undefined_scenario_falls_back "Recession" 100 0.001 []))
                H) as [Hrun Hin].
  split; [exact H|]. split; [exact Hrun|]. exact (Hin "energyCost" 60 Hk).
Defined.

(** ** Determinism and frame *)

(** C9. The object a run returns depends on the scenario name, the
    iteration cap and the threshold only: two invocations with the same
    three arguments return identical values for every attribute, whatever
    the console held when each was made, and so does a second invocation
    made right after the first. *)
Theorem C9_deterministic
    (name : string) (maxIterations : nat) (threshold : float)
    (console1 console2 : list LogEntry) :
  ∃ result : JsObject,
    returned (runSimulation name maxIterations threshold console1) = Some result
    ∧ returned (runSimulation name maxIterations threshold console2) = Some result
    ∧ ∃ after1 after2 : list LogEntry,
        runSimulation name maxIterations threshold console1 = Return (result, after1)
        ∧ runSimulation name maxIterations threshold after1 = Return (result, after2).
Proof.
  unfold runSimulation. cbn [returned].
  set (c := resolvedContext name).
  destruct (loop maxIterations 0 threshold c console1) as [r1 a1] eqn:E1.
  assert (H2 : (loop maxIterations 0 threshold c console2).1 = r1).
  { rewrite (loop_result_independent maxIterations 0 0 threshold c console2 console1).
    rewrite E1. reflexivity. }
  assert (H3 : (loop maxIterations 0 threshold c a1).1 = r1).
  { rewrite (loop_result_independent maxIterations 0 0 threshold c a1 console1).
    rewrite E1. reflexivity. }
  destruct (loop maxIterations 0 threshold c console2) as [r2 a2].
  destruct (loop maxIterations 0 threshold c a1) as [r3 a3] eqn:E3.
  cbn [fst] in H2, H3. subst r2 r3.
  exists r1. split; [reflexivity|]. split; [reflexivity|].
  exists a1, a3. split; [reflexivity|]. rewrite E3. reflexivity.
Qed.

(** C10. For every scenario name and every option, a property that is not
    one of the four calculated attributes has in the returned context the
    value it had on entry to the loop; an input attribute therefore returns
    with its resolved value, the scenario's override when there is one and
    its default otherwise. *)
Theorem C10_loop_writes_calculated_only
    (name : string) (maxIterations : nat) (threshold : float)
    (console : list LogEntry) (k : string) :
  k ∉ calculatedAttributes →
  ∃ (result : JsObject) (console' : list LogEntry),
    runSimulation name maxIterations threshold console = Return (result, console')
    ∧ result !! k = resolvedContext name !! k
    ∧ ∀ v : float,
        inputDefaults !! k = Some v →
        result !! k = Some (default v (overridesOf name !! k)).
Proof.
  intros Hk. unfold runSimulation.
  destruct (loop_returns_iterate maxIterations 0 threshold
              (resolvedContext name) console) as (n & _ & Heq).
  destruct (loop maxIterations 0 threshold (resolvedContext name) console)
    as [result console'].
  cbn [fst] in Heq. subst result.
  exists (iterate n (resolvedContext name)), console'.
  split; [reflexivity|].
  rewrite (iterate_frame n _ k Hk). split; [reflexivity|].
  intros v Hv. apply resolved_input, Hv.
Qed.

Lemma C10_loop_writes_calculated_only_witness :
  ("energyCost" ∉ calculatedAttributes)
  ∧ (∃ (result : JsObject) (console' : list LogEntry),
      runSimulation "HighEnergyPrices" 100 0.001 [] = Return (result, console')
      ∧ result !! "energyCost" = resolvedContext "HighEnergyPrices" !! "energyCost"
      ∧ ∀ v : float,
          inputDefaults !! "energyCost" = Some v →
          result !! "energyCost"
          = Some (default v (overridesOf "HighEnergyPrices" !! "energyCost"))).
Proof.
  assert (H : "energyCost" ∉ calculatedAttributes) by compute_done.
  split; [exact H|].
  exact (C10_loop_writes_calculated_only "HighEnergyPrices" 100 0.001 [] "energyCost" H).
Defined.

(** ** Binary64 facts behind the formulas *)

Lemma mul_nan_l (x : float) : nan * x = nan.
Proof. apply Prim2SF_nan_eq. rewrite FloatAxioms.mul_spec. reflexivity. Qed.

Lemma add_nan_l (x : float) : nan + x = nan.
Proof. apply Prim2SF_nan_eq. rewrite FloatAxioms.add_spec. reflexivity. Qed.

Lemma add_nan_r (x : float) : x + nan = nan.
Proof.
  apply Prim2SF_nan_eq. rewrite FloatAxioms.add_spec.
  change (Prim2SF nan) with S754_nan. destruct (Prim2SF x); reflexivity.
Qed.

Lemma prop_missing (o : JsObject) (k : string) : o !! k = None → prop o k = nan.
Proof. intros H. unfold prop. rewrite H. reflexivity. Qed.

(** ** Further properties of [runSimulation] *)

(** With the default options every scenario name gives one of two outcomes. *)
Lemma default_run (name : string) (console : list LogEntry) :
  runSimulation name default_maxIterations default_threshold console
  = Return (if decide (name = "HighEnergyPrices")
            then highEnergyPricesResult else baseResult,
            console_log console (convergedLine 6)).
Proof.
  destruct (decide (name = "HighEnergyPrices")) as [->|HH]; [reflexivity|].
  unfold runSimulation. rewrite (resolvedContext_fallback name HH). reflexivity.
Qed.

(** One pass keeps two contexts in agreement on the Production attributes. *)
Lemma recalculate_production (c1 c2 : JsObject) :
  c1 !! "materialCost" = c2 !! "materialCost" →
  c1 !! "energyCost" = c2 !! "energyCost" →
  c1 !! "co2Cost" = c2 !! "co2Cost" →
  recalculate c1 !! "materialCost" = recalculate c2 !! "materialCost"
  ∧ recalculate c1 !! "energyCost" = recalculate c2 !! "energyCost"
  ∧ recalculate c1 !! "co2Cost" = recalculate c2 !! "co2Cost"
  ∧ recalculate c1 !! "disposalCost" = recalculate c2 !! "disposalCost".
Proof.
  intros Hm He Hc.
  destruct (recalculate_lookups c1) as (Hd1 & Hc1 & _ & _).
  destruct (recalculate_lookups c2) as (Hd2 & Hc2 & _ & _).
  rewrite !(recalculate_frame _ "materialCost") by compute_done.
  rewrite !(recalculate_frame _ "energyCost") by compute_done.
  rewrite Hd1, Hd2, Hc1, Hc2. unfold prop. rewrite Hm, He, Hc.
  repeat split; reflexivity.
Qed.

(** After a pass the co2Cost and ecoFees formulas hold on the new values. *)
Lemma recalculate_consistent (p : JsObject) :
  recalculate p !! "co2Cost"
  = Some (prop (recalculate p) "energyCost" * 0.1
          + prop (recalculate p) "disposalCost" * 0.05)
  ∧ recalculate p !! "ecoFees"
    = Some (prop (recalculate p) "logisticsCost" * 0.1
            + prop (recalculate p) "co2Cost" * 0.05).
Proof.
  destruct (recalculate_lookups p) as (Hd & Hco2 & Hl & He).
  assert (Hen : recalculate p !! "energyCost" = p !! "energyCost")
    by (apply recalculate_frame; compute_done).
  unfold prop in *. rewrite Hen, Hd, Hco2, Hl, He. split; reflexivity.
Qed.

(** X1. A threshold that is not greater than zero (zero, negative or NaN)
    is never met, because the largest absolute difference is never below
    zero: for every scenario name and cap the run makes all
    [maxIterations] passes, writes nothing and returns the values of the
    last pass. *)
Theorem X1_threshold_not_positive_never_converges
    (name : string) (maxIterations : nat) (threshold : float)
    (console : list LogEntry) :
  (0 <? threshold) = false →
  runSimulation name maxIterations threshold console
  = Return (iterate maxIterations (resolvedContext name), console).
Proof.
  intros Ht.
  destruct (run_spec name maxIterations threshold console)
    as [(k & _ & _ & Hconv & _)|[_ Heq]]; [|exact Heq].
  rewrite never_converges in Hconv by exact Ht. discriminate Hconv.
Qed.

Lemma X1_threshold_not_positive_witness :
  (0 <? nan) = false
  ∧ runSimulation "HighEnergyPrices" 100 nan []
    = Return (iterate 100 (resolvedContext "HighEnergyPrices"), []).
Proof.
  assert (H : (0 <? nan) = false) by (vm_compute; reflexivity).
  split; [exact H|].
  exact (X1_threshold_not_positive_never_converges "HighEnergyPrices" 100 nan [] H).
Defined.

(** X2. Once a run with cap [m1] has converged (it wrote its line), a
    larger cap changes nothing: the run with any cap [m2 >= m1] returns the
    same object and writes the same line. *)
Theorem X2_larger_cap_after_convergence
    (name : string) (m1 m2 : nat) (threshold : float) (console : list LogEntry) :
  (m1 ≤ m2)%nat →
  written (runSimulation name m1 threshold console) ≠ Some console →
  runSimulation name m2 threshold console = runSimulation name m1 threshold console.
Proof.
  intros Hle Hw.
  destruct (run_spec name m1 threshold console)
    as [(k1 & Hk1 & Hex1 & Hc1 & Heq1)|[_ Heq1]].
  2: { rewrite Heq1 in Hw. cbn [written] in Hw. contradiction. }
  rewrite exhausted_spec in Hex1.
  destruct (run_spec name m2 threshold console)
    as [(k2 & Hk2 & Hex2 & Hc2 & Heq2)|[Hex2 Heq2]];
    rewrite exhausted_spec in Hex2.
  - assert (k1 = k2) as <-.
    { destruct (lt_eq_lt_dec k1 k2) as [[Hlt|Heq]|Hgt]; [|exact Heq|].
      - specialize (Hex2 k1 Hlt). congruence.
      - specialize (Hex1 k2 Hgt). congruence. }
    rewrite Heq1, Heq2. reflexivity.
  - assert (Hlt : (k1 < m2)%nat) by lia.
    specialize (Hex2 k1 Hlt). congruence.
Qed.

Lemma X2_larger_cap_witness :
  (6 ≤ 100)%nat
  ∧ written (runSimulation "Base" 6 0.001 []) ≠ Some []
  ∧ runSimulation "Base" 100 0.001 [] = runSimulation "Base" 6 0.001 [].
Proof.
  assert (Hle : (6 ≤ 100)%nat) by lia.
  assert (Hw : written (runSimulation "Base" 6 0.001 []) ≠ Some [])
    by (vm_compute; discriminate).
  split; [exact Hle|]. split; [exact Hw|].
  exact (X2_larger_cap_after_convergence "Base" 6 100 0.001 [] Hle Hw).
Defined.

(** X3. Whatever the scenario name, the cap and the threshold, the object
    a run returns has exactly the seven attributes of [blocks]: no pass adds
    or removes a property. *)
Theorem X3_result_has_the_seven_attributes
    (name : string) (maxIterations : nat) (threshold : float)
    (console : list LogEntry) :
  ∃ (result : JsObject) (console' : list LogEntry),
    runSimulation name maxIterations threshold console = Return (result, console')
    ∧ dom result = attributeNames.
Proof.
  unfold runSimulation.
  destruct (loop_returns_iterate maxIterations 0 threshold
              (resolvedContext name) console) as (n & _ & Heq).
  destruct (loop maxIterations 0 threshold (resolvedContext name) console)
    as [result console'].
  cbn [fst] in Heq. subst result.
  exists (iterate n (resolvedContext name)), console'.
  split; [reflexivity|apply iterate_dom].
Qed.

(** X4. The Production attributes do not depend on the Logistics block:
    two contexts that agree on materialCost, energyCost and co2Cost agree on
    disposalCost and co2Cost after every pass, whatever their transportCost,
    logisticsCost and ecoFees are. *)
Theorem X4_production_independent_of_logistics (c1 c2 : JsObject) (k : nat) :
  c1 !! "materialCost" = c2 !! "materialCost" →
  c1 !! "energyCost" = c2 !! "energyCost" →
  c1 !! "co2Cost" = c2 !! "co2Cost" →
  iterate (S k) c1 !! "disposalCost" = iterate (S k) c2 !! "disposalCost"
  ∧ iterate (S k) c1 !! "co2Cost" = iterate (S k) c2 !! "co2Cost".
Proof.
  intros Hm He Hc.
  assert (H : iterate (S k) c1 !! "materialCost" = iterate (S k) c2 !! "materialCost"
            ∧ iterate (S k) c1 !! "energyCost" = iterate (S k) c2 !! "energyCost"
            ∧ iterate (S k) c1 !! "co2Cost" = iterate (S k) c2 !! "co2Cost"
            ∧ iterate (S k) c1 !! "disposalCost" = iterate (S k) c2 !! "disposalCost").
  { induction k as [|k (IHm & IHe & IHc & _)].
    - cbn [iterate]. by apply recalculate_production.
    - change (iterate (S (S k)) c1) with (recalculate (iterate (S k) c1)).
      change (iterate (S (S k)) c2) with (recalculate (iterate (S k) c2)).
      by apply recalculate_production. }
  destruct H as (_ & _ & H3 & H4). split; assumption.
Qed.

Lemma X4_production_independent_witness :
  let c1 := resolvedContext "Base" in
  let c2 := <["transportCost" := 40]> (resolvedContext "Base") in
  c1 !! "transportCost" = Some 35 ∧ c2 !! "transportCost" = Some 40
  ∧ iterate 6 c1 !! "disposalCost" = iterate 6 c2 !! "disposalCost"
  ∧ iterate 6 c1 !! "co2Cost" = iterate 6 c2 !! "co2Cost".
Proof.
  intros c1 c2.
  assert (Hm : c1 !! "materialCost" = c2 !! "materialCost") by (vm_compute; reflexivity).
  assert (He : c1 !! "energyCost" = c2 !! "energyCost") by (vm_compute; reflexivity).
  assert (Hc : c1 !! "co2Cost" = c2 !! "co2Cost") by (vm_compute; reflexivity).
  split; [vm_compute; reflexivity|]. split; [vm_compute; reflexivity|].
  exact (X4_production_independent_of_logistics c1 c2 5 Hm He Hc).
Defined.

(** X5. The four assignments of a pass do not depend on the disposalCost
    and the logisticsCost the context held before them: both are assigned
    before any formula reads them, so replacing the two values by any others
    gives the same context after the four assignments, and after any number
    of further passes' assignments.  (The statement is about the
    assignments, not about the convergence test that follows them.) *)
Theorem X5_pass_ignores_old_disposal_and_logistics (c : JsObject) (x y : float) :
  recalculate (<["disposalCost" := x]> (<["logisticsCost" := y]> c)) = recalculate c
  ∧ ∀ k : nat,
      iterate (S k) (<["disposalCost" := x]> (<["logisticsCost" := y]> c))
      = iterate (S k) c.
Proof.
  assert (H : recalculate (<["disposalCost" := x]> (<["logisticsCost" := y]> c))
              = recalculate c).
  { rewrite !recalculate_eq. cbv zeta. unfold prop.
    rewrite !lookup_insert_ne by discriminate.
    apply map_eq. intros k. rewrite !lookup_insert.
    repeat case_decide; reflexivity. }
  split; [exact H|].
  intros k. induction k as [|k IH]; cbn [iterate] in *; [exact H|].
  rewrite IH. reflexivity.
Qed.

(** X6. On an object whose properties are numbers, a formula returns NaN
    when the object lacks one of the two properties the formula reads: the
    missing property is [undefined] and the arithmetic turns it into NaN. *)
Theorem X6_formula_on_missing_property_is_nan (ctx : JsObject) :
  ((ctx !! "materialCost" = None ∨ ctx !! "co2Cost" = None) →
   formula blocks.Production.disposalCost ctx = nan)
  ∧ ((ctx !! "energyCost" = None ∨ ctx !! "disposalCost" = None) →
     formula blocks.Production.co2Cost ctx = nan)
  ∧ ((ctx !! "transportCost" = None ∨ ctx !! "ecoFees" = None) →
     formula blocks.Logistics.logisticsCost ctx = nan)
  ∧ ((ctx !! "logisticsCost" = None ∨ ctx !! "co2Cost" = None) →
     formula blocks.Logistics.ecoFees ctx = nan).
Proof.
  cbn [formula blocks.Production.disposalCost blocks.Production.co2Cost
       blocks.Logistics.logisticsCost blocks.Logistics.ecoFees].
  repeat split; intros [H|H]; rewrite (prop_missing _ _ H);
    rewrite ?mul_nan_l; first [apply add_nan_l | apply add_nan_r].
Qed.

Lemma X6_formula_on_missing_property_witness :
  Production HighEnergyPrices !! "materialCost" = None
  ∧ formula blocks.Production.disposalCost (Production HighEnergyPrices) = nan.
Proof.
  assert (H : Production HighEnergyPrices !! "materialCost" = None)
    by (vm_compute; reflexivity).
  split; [exact H|].
  exact (proj1 (X6_formula_on_missing_property_is_nan (Production HighEnergyPrices))
           (or_introl H)).
Defined.

(** X7. With the default options (cap 100, threshold 0.001) every scenario
    name converges in 6 iterations: the call returns the recorded
    HighEnergyPrices result for that name and the recorded Base result for
    every other name, and the script's [console.log(runSimulation(name))]
    leaves the convergence line followed by that object on the console. *)
Theorem X7_default_options_outcome (name : string) (console : list LogEntry) :
  let result :=
    if decide (name = "HighEnergyPrices") then highEnergyPricesResult else baseResult in
  runSimulation name default_maxIterations default_threshold console
  = Return (result, console_log console (convergedLine 6))
  ∧ print_run name console
    = console_log (console_log console (convergedLine 6)) (LogObject result).
Proof.
  intros result. subst result. unfold print_run.
  rewrite default_run. split; reflexivity.
Qed.

(** X8. Whenever at least one pass is made, the returned values satisfy
    the co2Cost and the ecoFees formulas exactly: co2Cost = energyCost * 0.1
    + disposalCost * 0.05 and ecoFees = logisticsCost * 0.1 + co2Cost * 0.05
    hold on the returned object itself. *)
Theorem X8_result_satisfies_last_assigned_formulas
    (name : string) (maxIterations : nat) (threshold : float)
    (console : list LogEntry) :
  (0 < maxIterations)%nat →
  ∃ (result : JsObject) (console' : list LogEntry),
    runSimulation name maxIterations threshold console = Return (result, console')
    ∧ result !! "co2Cost"
      = Some (formula blocks.Production.co2Cost result)
    ∧ result !! "ecoFees"
      = Some (formula blocks.Logistics.ecoFees result).
Proof.
  intros Hpos.
  cbn [formula blocks.Production.co2Cost blocks.Logistics.ecoFees].
  destruct (run_spec name maxIterations threshold console)
    as [(k & _ & _ & _ & Heq)|[_ Heq]]; rewrite Heq.
  - eexists _, _. split; [reflexivity|]. cbn [iterate]. apply recalculate_consistent.
  - destruct maxIterations as [|m]; [lia|].
    eexists _, _. split; [reflexivity|]. cbn [iterate]. apply recalculate_consistent.
Qed.

Lemma X8_result_satisfies_witness :
  (0 < 100)%nat
  ∧ ∃ (result : JsObject) (console' : list LogEntry),
      runSimulation "Base" 100 0.001 [] = Return (result, console')
      ∧ result !! "co2Cost" = Some (formula blocks.Production.co2Cost result)
      ∧ result !! "ecoFees" = Some (formula blocks.Logistics.ecoFees result).
Proof.
  assert (H : (0 < 100)%nat) by lia.
  split; [exact H|].
  exact (X8_result_satisfies_last_assigned_formulas "Base" 100 0.001 [] H).
Defined.
